(** * Bootstrap of the Config-Files demo server (src/app.js)

    app.js is one linear script: it reads the configuration object exported
    by config.js, starts the mongoose and redis connections, builds the
    express application, attaches the middleware, mounts the route table and
    calls listen.  Three callbacks are left with the event loop (the
    mongoose connect callback, the rejection handler of the redis connect
    promise and the listen callback); Node runs them after the script has
    run to completion, in an order the script does not control.

    The embedding follows that shape.  The calls the script makes on its
    libraries are recorded, in order, in a trace.  The script is a list of
    statements over a state-and-exception monad; the event loop is a function
    that delivers a list of completion events to the handlers written in
    app.js.  An exception nobody catches ends the process.

    A library call may throw instead of returning: redis.createClient on a
    malformed url, favicon on a missing icon file, app.listen on a port out
    of range.  Which calls throw is decided outside app.js, so it is a
    parameter of the script; a call that throws leaves no entry in the
    trace and, as nothing in app.js catches it, ends the script there. *)

From stdpp Require Import base strings list gmap.

(** ** JavaScript values that occur in the option objects of app.js *)

Definition handle := nat.
Definition error := string.

#[warnings="-register-all"]
Inductive value :=
| VBool (b : bool)
| VStr (s : string)
| VRef (h : handle)
| VObj (fields : list (string * value)).

(** Property read [o.k] on an object literal; [None] is JavaScript's
    undefined (the literal does not specify the key). *)
Fixpoint assoc (k : string) (fs : list (string * value)) : option value :=
  match fs with
  | [] => None
  | (k', v) :: fs' => if String.eqb k k' then Some v else assoc k fs'
  end.

Definition field (k : string) (v : value) : option value :=
  match v with
  | VObj fs => assoc k fs
  | _ => None
  end.

(** ** The configuration object (module.exports of config.js)

    app.js reads config.connections.mongo, config.connections.redis,
    config.connections.http.port, config.secret and config.staticAssets.path.
    The port is kept in its textual form, the one the template literal of
    line 115 prints. *)

Record Http := { port : string }.
Record Connections := { mongo : string; redis : string; http : Http }.
Record StaticAssets := { path : string }.
Record Config := {
  connections : Connections;
  secret : string;
  staticAssets : StaticAssets
}.

(** ** Library calls made by the script *)

Inductive middleware :=
| ExpressStatic (root : string)
| Compression
| BodyParserUrlencoded (opts : value)
| Session (opts : value)
| Favicon (icon : string)
| CookieParser.

Inductive action :=
| MongooseConnect (uri : string)
| RedisCreateClient (opts : value) (client : handle)
| ClientConnect (client : handle)
| RequireModule (module : string)
| Express (a : handle)
| AppUse (a : handle) (mount : option string) (mw : middleware)
| NewRedisStore (opts : value) (store : handle)
| AppEngine (a : handle) (ext : string) (opts : value)
| AppSet (a : handle) (name val : string)
| Router (a : handle)
| AppListen (a : handle) (p : string)
| ConsoleLog (msg : string)
| ConsoleError (e : error)
| Uncaught (e : error).

(** Callbacks handed to the event loop. *)
Inductive callback := CbMongoose | CbRedis | CbListen.

Definition callback_eqb (a b : callback) : bool :=
  match a, b with
  | CbMongoose, CbMongoose | CbRedis, CbRedis | CbListen, CbListen => true
  | _, _ => false
  end.

Inductive liveness := Running | Crashed (e : error).

(** ** Process state

    [config], [redisClient] and [app] are the module-level bindings of
    lines 14, 50 and 59; [next] is the next free object identity; [pending]
    lists the callbacks registered and not yet run. *)

Record State := mkState {
  config : Config;
  redisClient : option handle;
  app : option handle;
  next : handle;
  pending : list callback;
  trace : list action;
  status : liveness
}.

Definition init (cfg : Config) : State :=
  mkState cfg None None 0 [] [] Running.

Definition is_pending (c : callback) (s : State) : bool :=
  existsb (callback_eqb c) (pending s).

(** ** State and exception monad *)

Inductive result (A : Type) :=
| Ok (a : A)
| Throw (e : error).
Arguments Ok {A} a.
Arguments Throw {A} e.

Definition M (A : Type) : Type := State -> result A * State.

Definition ret {A} (a : A) : M A := fun s => (Ok a, s).

Definition bind {A B} (m : M A) (k : A -> M B) : M B :=
  fun s =>
    match m s with
    | (Ok a, s') => k a s'
    | (Throw e, s') => (Throw e, s')
    end.

Notation "x <- m ;; k" := (bind m (fun x => k))
  (at level 100, m at next level, right associativity).
Notation "m ;; k" := (bind m (fun _ => k))
  (at level 100, right associativity).

Definition throw {A} (e : error) : M A := fun s => (Throw e, s).

Definition emit (a : action) : M unit :=
  fun s =>
    (Ok tt, mkState (config s) (redisClient s) (app s) (next s) (pending s)
                    (trace s ++ [a]) (status s)).

Definition alloc : M handle :=
  fun s =>
    (Ok (next s), mkState (config s) (redisClient s) (app s) (S (next s))
                          (pending s) (trace s) (status s)).

Definition register (c : callback) : M unit :=
  fun s =>
    (Ok tt, mkState (config s) (redisClient s) (app s) (next s)
                    (pending s ++ [c]) (trace s) (status s)).

Definition get_config : M Config := fun s => (Ok (config s), s).

Definition set_redisClient (h : handle) : M unit :=
  fun s =>
    (Ok tt, mkState (config s) (Some h) (app s) (next s) (pending s)
                    (trace s) (status s)).

Definition set_app (h : handle) : M unit :=
  fun s =>
    (Ok tt, mkState (config s) (redisClient s) (Some h) (next s) (pending s)
                    (trace s) (status s)).

(** Reading a module-level binding before its declaration has run is a
    ReferenceError. *)
Definition get_redisClient : M handle :=
  fun s =>
    match redisClient s with
    | Some h => (Ok h, s)
    | None => (Throw "ReferenceError: redisClient", s)
    end.

Definition get_app : M handle :=
  fun s =>
    match app s with
    | Some h => (Ok h, s)
    | None => (Throw "ReferenceError: app", s)
    end.

(** Running one top-level statement or one callback: nothing runs in a
    process that has ended, and an exception that reaches the top ends it. *)
Definition crash (e : error) (s : State) : State :=
  mkState (config s) (redisClient s) (app s) (next s) (pending s)
          (trace s ++ [Uncaught e]) (Crashed e).

Definition run_top (m : M unit) (s : State) : State :=
  match status s with
  | Crashed _ => s
  | Running =>
      match m s with
      | (Ok _, s') => s'
      | (Throw e, s') => crash e s'
      end
  end.

Section Bootstrap.

(** path.resolve and __dirname belong to Node, not to this repository. *)
Variable path_resolve : string -> string.
Variable dirname : string.

(** The libraries: for each call, the exception it throws, if any. *)
Variable throws : action -> option error.

(** A call into a library: it either throws or returns and is recorded. *)
Definition call (a : action) : M unit :=
  match throws a with
  | Some e => throw e
  | None => emit a
  end.

(** ** The statements of app.js, named by the line they start on *)

(** mongoose.connect(config.connections.mongo, (err) => ...) *)
Definition line39 : M unit :=
  cfg <- get_config ;;
  call (MongooseConnect (mongo (connections cfg))) ;;
  register CbMongoose.

(** const redisClient = redis.createClient({ legacyMode: true, url: ... }) *)
Definition line50 : M unit :=
  cfg <- get_config ;;
  h <- alloc ;;
  call (RedisCreateClient
          (VObj [("legacyMode", VBool true);
                 ("url", VStr (redis (connections cfg)))]) h) ;;
  set_redisClient h.

(** redisClient.connect().catch(console.error) *)
Definition line54 : M unit :=
  c <- get_redisClient ;;
  call (ClientConnect c) ;;
  register CbRedis.

(** const router = require('./router.js') *)
Definition line58 : M unit := call (RequireModule "./router.js").

(** const app = express() *)
Definition line59 : M unit :=
  h <- alloc ;;
  call (Express h) ;;
  set_app h.

(** app.use('/assets', express.static(path.resolve(config.staticAssets.path))) *)
Definition line71 : M unit :=
  a <- get_app ;;
  cfg <- get_config ;;
  call (AppUse a (Some "/assets")
          (ExpressStatic (path_resolve (path (staticAssets cfg))))).

(** app.use(compression()) *)
Definition line73 : M unit :=
  a <- get_app ;;
  call (AppUse a None Compression).

(** app.use(bodyParser.urlencoded({ extended: true })) *)
Definition line74 : M unit :=
  a <- get_app ;;
  call (AppUse a None (BodyParserUrlencoded (VObj [("extended", VBool true)]))).

(** app.use(session({ key, store: new RedisStore({ client }), secret, ... })) *)
Definition line82 : M unit :=
  a <- get_app ;;
  c <- get_redisClient ;;
  st <- alloc ;;
  call (NewRedisStore (VObj [("client", VRef c)]) st) ;;
  cfg <- get_config ;;
  call (AppUse a None
          (Session (VObj [("key", VStr "sessionid");
                          ("store", VRef st);
                          ("secret", VStr (secret cfg));
                          ("resave", VBool true);
                          ("saveUninitialized", VBool true);
                          ("cookie", VObj [("httpOnly", VBool true)])]))).

(** app.engine('handlebars', expressHandlebars.engine({ defaultLayout: '' })) *)
Definition line95 : M unit :=
  a <- get_app ;;
  call (AppEngine a "handlebars" (VObj [("defaultLayout", VStr "")])).

(** app.set('view engine', 'handlebars') *)
Definition line96 : M unit :=
  a <- get_app ;;
  call (AppSet a "view engine" "handlebars").

(** app.set('views', `${__dirname}/../views`) *)
Definition line97 : M unit :=
  a <- get_app ;;
  call (AppSet a "views" (dirname +:+ "/../views")).

(** app.use(favicon(path.resolve(`${config.staticAssets.path}/img/favicon.png`))) *)
Definition line102 : M unit :=
  a <- get_app ;;
  cfg <- get_config ;;
  call (AppUse a None
          (Favicon (path_resolve (path (staticAssets cfg) +:+ "/img/favicon.png")))).

(** app.use(cookieParser()) *)
Definition line103 : M unit :=
  a <- get_app ;;
  call (AppUse a None CookieParser).

(** router(app) *)
Definition line105 : M unit :=
  a <- get_app ;;
  call (Router a).

(** app.listen(config.connections.http.port, (err) => ...) *)
Definition line111 : M unit :=
  a <- get_app ;;
  cfg <- get_config ;;
  call (AppListen a (port (http (connections cfg)))) ;;
  register CbListen.

Definition script : list (M unit) :=
  [line39; line50; line54; line58; line59; line71; line73; line74; line82;
   line95; line96; line97; line102; line103; line105; line111].

Definition exec (stmts : list (M unit)) (s : State) : State :=
  fold_left (fun s m => run_top m s) stmts s.

Definition main (cfg : Config) : State := exec script (init cfg).

(** ** The callbacks written in app.js *)

(** (err) => { if (err) { console.log('Could not connect to database'); throw err; } } *)
Definition mongoose_callback (err : option error) : M unit :=
  match err with
  | Some e => emit (ConsoleLog "Could not connect to database") ;; throw e
  | None => ret tt
  end.

(** .catch(console.error): runs only when the connect promise is rejected. *)
Definition redis_catch (e : error) : M unit := emit (ConsoleError e).

(** (err) => { if (err) { throw err; } console.log(`Listening on port ${...}`); } *)
Definition listen_callback (err : option error) : M unit :=
  match err with
  | Some e => throw e
  | None =>
      cfg <- get_config ;;
      emit (ConsoleLog ("Listening on port " +:+ port (http (connections cfg))))
  end.

(** ** The event loop *)

(** What the libraries report back: the argument of the mongoose callback,
    how the redis connect promise settles ([None]: fulfilled), the argument
    of the listen callback. *)
Inductive event :=
| MongooseDone (err : option error)
| RedisSettled (rejection : option error)
| ListenDone (err : option error).

Definition callback_of (ev : event) : callback :=
  match ev with
  | MongooseDone _ => CbMongoose
  | RedisSettled _ => CbRedis
  | ListenDone _ => CbListen
  end.

Definition handler (ev : event) : M unit :=
  match ev with
  | MongooseDone err => mongoose_callback err
  | RedisSettled (Some e) => redis_catch e
  | RedisSettled None => ret tt
  | ListenDone err => listen_callback err
  end.

Definition unregister (c : callback) : M unit :=
  fun s =>
    (Ok tt, mkState (config s) (redisClient s) (app s) (next s)
                    (filter (fun c' => negb (callback_eqb c c')) (pending s))
                    (trace s) (status s)).

(** A callback runs at most once, only if it was registered, and only in a
    live process. *)
Definition deliverable (ev : event) (s : State) : bool :=
  match status s with
  | Running => is_pending (callback_of ev) s
  | Crashed _ => false
  end.

Definition deliver (s : State) (ev : event) : State :=
  if deliverable ev s
  then run_top (unregister (callback_of ev) ;; handler ev) s
  else s.

Definition loop (evs : list event) (s : State) : State :=
  fold_left deliver evs s.

Definition run (cfg : Config) (evs : list event) : State :=
  loop evs (main cfg).

End Bootstrap.

(** The libraries when every call returns. *)
Definition never (a : action) : option error := None.

(** ** Reading a trace *)

(** The bootstrap stages of section 4.4, in the words of the
    specification; app.set only changes a setting and is no stage. *)
Inductive stage :=
| StaticStage
| CompressionStage
| BodyParsingStage
| SessionStage
| TemplatingStage
| FaviconStage
| CookieStage
| RoutesStage
| ListenStage.

Definition stage_of (a : action) : option stage :=
  match a with
  | AppUse _ _ (ExpressStatic _) => Some StaticStage
  | AppUse _ _ Compression => Some CompressionStage
  | AppUse _ _ (BodyParserUrlencoded _) => Some BodyParsingStage
  | AppUse _ _ (Session _) => Some SessionStage
  | AppEngine _ _ _ => Some TemplatingStage
  | AppUse _ _ (Favicon _) => Some FaviconStage
  | AppUse _ _ CookieParser => Some CookieStage
  | Router _ => Some RoutesStage
  | AppListen _ _ => Some ListenStage
  | _ => None
  end.

Definition stages (t : list action) : list stage := omap stage_of t.

(** Console output and the final uncaught exception: all a callback of
    app.js can add to the trace. *)
Definition is_report (a : action) : bool :=
  match a with
  | ConsoleLog _ | ConsoleError _ | Uncaught _ => true
  | _ => false
  end.

Definition created_client (a : action) : option (value * handle) :=
  match a with
  | RedisCreateClient opts h => Some (opts, h)
  | _ => None
  end.

Definition created_store (a : action) : option (value * handle) :=
  match a with
  | NewRedisStore opts h => Some (opts, h)
  | _ => None
  end.

Definition session_options (a : action) : option value :=
  match a with
  | AppUse _ _ (Session opts) => Some opts
  | _ => None
  end.

Definition static_mount (a : action) : option (option string * string) :=
  match a with
  | AppUse _ mount (ExpressStatic root) => Some (mount, root)
  | _ => None
  end.


Definition mongoose_uri (a : action) : option string :=
  match a with
  | MongooseConnect uri => Some uri
  | _ => None
  end.

Definition connected_client (a : action) : option handle :=
  match a with
  | ClientConnect h => Some h
  | _ => None
  end.

Definition listen_port (a : action) : option string :=
  match a with
  | AppListen _ p => Some p
  | _ => None
  end.

(** A path is absolute (POSIX) when it starts at the root. *)
Definition is_absolute (p : string) : bool := String.prefix "/" p.

(** ** Node's path.resolve on POSIX paths

    The bootstrap takes path.resolve as a parameter.  This is the function
    it is instantiated with when a concrete run is evaluated: the path is
    read against the working directory unless it starts at the root, empty
    and "." segments are dropped, ".." removes the segment before it. *)

Fixpoint segments_from (cur : string) (s : string) : list string :=
  match s with
  | EmptyString => [cur]
  | String c s' =>
      if Ascii.eqb c (Ascii.ascii_of_nat 47) (* the slash *)
      then cur :: segments_from "" s'
      else segments_from (cur +:+ String c "") s'
  end.

Definition segments (s : string) : list string := segments_from "" s.

(** The directory stack is kept innermost first. *)
Definition walk (stack : list string) (seg : string) : list string :=
  if String.eqb seg "" || String.eqb seg "." then stack
  else if String.eqb seg ".." then tail stack
  else seg :: stack.

Definition posix_resolve (cwd p : string) : string :=
  let segs := if is_absolute p then segments p else segments cwd ++ segments p in
  "/" +:+ String.concat "/" (rev (fold_left walk segs [])).

(** ** The config resolver *)

Inductive setting := MongoUri | RedisUrl | HttpPort | SessionSecret | StaticPath.

Definition get (f : setting) (c : Config) : string :=
  match f with
  | MongoUri => mongo (connections c)
  | RedisUrl => redis (connections c)
  | HttpPort => port (http (connections c))
  | SessionSecret => secret c
  | StaticPath => path (staticAssets c)
  end.

Definition of_values (vals : setting -> string) : Config :=
  {| connections := {| mongo := vals MongoUri;
                       redis := vals RedisUrl;
                       http := {| port := vals HttpPort |} |};
     secret := vals SessionSecret;
     staticAssets := {| path := vals StaticPath |} |}.

Section Resolver.

(** The specification fixes neither the names of the environment variables
    nor the default values; both are parameters. *)
Variable variable_of : setting -> string.
Variable defaults : Config.

(** Modelled from the spec: src/config.js, the module app.js requires on
    line 14, is not among the sources.  Section 4.1: for each field, if a
    named environment variable is set and non-empty, use it; otherwise use
    a fixed default.  No error is raised for a missing variable. *)
Definition pick (env : gmap string string) (f : setting) : string :=
  match env !! variable_of f with
  | Some v => if String.eqb v "" then get f defaults else v
  | None => get f defaults
  end.

(** Modelled from the spec: the configuration structure of section 3,
    every field resolved by the policy of section 4.1. *)
Definition resolve (env : gmap string string) : Config := of_values (pick env).

End Resolver.

(** ** Sample inputs *)

Definition sample : Config :=
  {| connections := {| mongo := "mongodb://127.0.0.1/demo";
                       redis := "redis://127.0.0.1:6379";
                       http := {| port := "3000" |} |};
     secret := "s3cret";
     staticAssets := {| path := "hosted/" |} |}.

Definition sample_variable (f : setting) : string :=
  match f with
  | MongoUri => "MONGODB_URI"
  | RedisUrl => "REDIS_URL"
  | HttpPort => "PORT"
  | SessionSecret => "SECRET"
  | StaticPath => "STATIC_PATH"
  end.

Definition sample_values (f : setting) : string :=
  match f with
  | MongoUri => "mongodb://db.example/prod"
  | RedisUrl => "redis://cache.example:6379"
  | HttpPort => "8080"
  | SessionSecret => "hunter2"
  | StaticPath => "client/"
  end.

Definition sample_env : gmap string string :=
  <["MONGODB_URI" := "mongodb://db.example/prod"]>
  (<["REDIS_URL" := "redis://cache.example:6379"]>
  (<["PORT" := "8080"]>
  (<["SECRET" := "hunter2"]>
  (<["STATIC_PATH" := "client/"]> ∅)))).

Definition sample_resolve : string -> string := posix_resolve "/srv/app".
Definition sample_dirname : string := "/srv/app/src".


(** A sample of how the libraries answer: redis.createClient rejects a url
    that is not a redis url, favicon an icon that is not on disk, and
    app.listen a port that is not a number below 65536; the other calls
    return. *)

Definition digit_of (c : Ascii.ascii) : option N :=
  let n := Ascii.N_of_ascii c in
  if (48 <=? n)%N && (n <=? 57)%N then Some (n - 48)%N else None.

Fixpoint port_number (acc : N) (s : string) : option N :=
  match s with
  | EmptyString => Some acc
  | String c s' =>
      match digit_of c with
      | Some d => port_number (10 * acc + d)%N s'
      | None => None
      end
  end.

Definition valid_port (p : string) : bool :=
  match port_number 0 p with
  | Some n => (n <? 65536)%N
  | None => false
  end.

Definition sample_files : list string :=
  ["/srv/app/hosted/img/favicon.png"; "/srv/app/client/img/favicon.png"].

Definition sample_throws (a : action) : option error :=
  match a with
  | RedisCreateClient opts _ =>
      match field "url" opts with
      | Some (VStr u) =>
          if String.prefix "redis://" u then None else Some "ERR_INVALID_URL"
      | _ => None
      end
  | AppUse _ _ (Favicon icon) =>
      if existsb (String.eqb icon) sample_files then None else Some "ENOENT"
  | AppListen _ p =>
      if valid_port p then None else Some "ERR_SOCKET_BAD_PORT"
  | _ => None
  end.


(** ** Further readings of a trace and of an event sequence *)

(** An operation that never writes the [config] binding. *)
Definition reads_only {A} (m : M A) : Prop :=
  forall s, config (snd (m s)) = config s.

(** The events on which a callback of app.js throws: the mongoose callback
    (line 42) and the listen callback (line 113) when given an error. *)
Definition fatal (ev : event) : option error :=
  match ev with
  | MongooseDone (Some e) => Some e
  | ListenDone (Some e) => Some e
  | _ => None
  end.

(** An event that reports a failure of any of the three operations. *)
Definition failure (ev : event) : bool :=
  match ev with
  | MongooseDone (Some _) | RedisSettled (Some _) | ListenDone (Some _) => true
  | _ => false
  end.

Definition listen_ok (ev : event) : bool :=
  match ev with
  | ListenDone None => true
  | _ => false
  end.

(** The application a call is made on. *)
Definition target (a : action) : option handle :=
  match a with
  | AppUse h _ _ | AppEngine h _ _ | AppSet h _ _ | Router h | AppListen h _ =>
      Some h
  | _ => None
  end.

Definition created_app (a : action) : option handle :=
  match a with
  | Express h => Some h
  | _ => None
  end.

Definition created (a : action) : option handle :=
  match a with
  | RedisCreateClient _ h | Express h | NewRedisStore _ h => Some h
  | _ => None
  end.

Definition engine_ext (a : action) : option string :=
  match a with
  | AppEngine _ ext _ => Some ext
  | _ => None
  end.

(** app.set(name, val) overwrites: the setting in force is the last one. *)
Fixpoint app_setting (name : string) (t : list action) : option string :=
  match t with
  | [] => None
  | a :: t' =>
      match app_setting name t' with
      | Some v => Some v
      | None =>
          match a with
          | AppSet _ name' v => if String.eqb name name' then Some v else None
          | _ => None
          end
      end
  end.

Definition is_redis (ev : event) : bool :=
  match ev with
  | RedisSettled _ => true
  | _ => false
  end.

Definition is_console_error (a : action) : bool :=
  match a with
  | ConsoleError _ => true
  | _ => false
  end.

(** Two states that differ at most in what redis has reported: in the
    console.error lines of the trace and in the pending redis callback. *)
Definition same_but_redis (s s' : State) : Prop :=
  status s = status s' /\
  config s = config s' /\
  is_pending CbMongoose s = is_pending CbMongoose s' /\
  is_pending CbListen s = is_pending CbListen s' /\
  List.filter (fun a => negb (is_console_error a)) (trace s) =
  List.filter (fun a => negb (is_console_error a)) (trace s').

(** * Properties *)

Lemma run_top_crashed (m : M unit) (s : State) (e : error) :
  status s = Crashed e -> run_top m s = s.
Proof. intros H. unfold run_top. rewrite H. reflexivity. Qed.

Lemma exec_cons (m : M unit) (ms : list (M unit)) (s : State) :
  exec (m :: ms) s = exec ms (run_top m s).
Proof. reflexivity. Qed.

Lemma exec_crashed (ms : list (M unit)) (s : State) (e : error) :
  status s = Crashed e -> exec ms s = s.
Proof.
  intros H. induction ms as [|m ms IH]; [reflexivity|].
  rewrite exec_cons, (run_top_crashed m s e H). exact IH.
Qed.

(** ** The monad's operations and the callbacks leave the bindings alone *)

Create HintDb reads_only.

Lemma reads_only_ret {A} (a : A) : reads_only (ret a).
Proof. intros s. reflexivity. Qed.

Lemma reads_only_throw {A} (e : error) : reads_only (@throw A e).
Proof. intros s. reflexivity. Qed.

Lemma reads_only_bind {A B} (m : M A) (k : A -> M B) :
  reads_only m -> (forall a, reads_only (k a)) -> reads_only (bind m k).
Proof.
  intros Hm Hk s. unfold bind. specialize (Hm s).
  destruct (m s) as [[a|e] s']; simpl in *.
  - rewrite Hk. exact Hm.
  - exact Hm.
Qed.

Lemma reads_only_emit (a : action) : reads_only (emit a).
Proof. intros s. reflexivity. Qed.

Lemma reads_only_call (throws : action -> option error) (a : action) :
  reads_only (call throws a).
Proof. intros s. unfold call. destruct (throws a); reflexivity. Qed.

Lemma reads_only_alloc : reads_only alloc.
Proof. intros s. reflexivity. Qed.

Lemma reads_only_register (c : callback) : reads_only (register c).
Proof. intros s. reflexivity. Qed.

Lemma reads_only_unregister (c : callback) : reads_only (unregister c).
Proof. intros s. reflexivity. Qed.

Lemma reads_only_get_config : reads_only get_config.
Proof. intros s. reflexivity. Qed.

Lemma reads_only_set_redisClient (h : handle) : reads_only (set_redisClient h).
Proof. intros s. reflexivity. Qed.

Lemma reads_only_set_app (h : handle) : reads_only (set_app h).
Proof. intros s. reflexivity. Qed.

Lemma reads_only_get_redisClient : reads_only get_redisClient.
Proof. intros s. unfold get_redisClient. destruct (redisClient s); reflexivity. Qed.

Lemma reads_only_get_app : reads_only get_app.
Proof. intros s. unfold get_app. destruct (app s); reflexivity. Qed.

#[export] Hint Resolve reads_only_ret reads_only_throw reads_only_emit
  reads_only_call
  reads_only_alloc reads_only_register reads_only_unregister
  reads_only_get_config reads_only_set_redisClient reads_only_set_app
  reads_only_get_redisClient reads_only_get_app : reads_only.

Ltac reads_only :=
  repeat (apply reads_only_bind; [|intros ?]); auto with reads_only.

Lemma run_top_config (m : M unit) (s : State) :
  reads_only m -> config (run_top m s) = config s.
Proof.
  intros Hm. unfold run_top. destruct (status s); [|reflexivity].
  specialize (Hm s). destruct (m s) as [[u|e] s']; simpl in *; exact Hm.
Qed.

Lemma exec_config (stmts : list (M unit)) (s : State) :
  Forall reads_only stmts -> config (exec stmts s) = config s.
Proof.
  intros H. revert s. induction H as [|m stmts Hm _ IH]; intros s.
  - reflexivity.
  - unfold exec in *. simpl. rewrite IH. apply run_top_config, Hm.
Qed.

(** ** The event loop *)

(** What delivering one event does, case by case. *)
Lemma deliver_refused (s : State) (ev : event) :
  deliverable ev s = false -> deliver s ev = s.
Proof. intros H. unfold deliver. rewrite H. reflexivity. Qed.

Lemma deliverable_running (s : State) (ev : event) :
  deliverable ev s = true -> status s = Running.
Proof. unfold deliverable. destruct (status s); [reflexivity | discriminate]. Qed.

Lemma deliver_mongoose_failure (s : State) (e : error) :
  deliverable (MongooseDone (Some e)) s = true ->
  trace (deliver s (MongooseDone (Some e))) =
    trace s ++ [ConsoleLog "Could not connect to database"; Uncaught e] /\
  status (deliver s (MongooseDone (Some e))) = Crashed e.
Proof.
  intros H. pose proof (deliverable_running _ _ H) as Hr.
  unfold deliver. rewrite H. unfold run_top. rewrite Hr. simpl.
  rewrite <- app_assoc. split; reflexivity.
Qed.

Lemma deliver_redis_rejection (s : State) (e : error) :
  deliverable (RedisSettled (Some e)) s = true ->
  trace (deliver s (RedisSettled (Some e))) = trace s ++ [ConsoleError e] /\
  status (deliver s (RedisSettled (Some e))) = Running.
Proof.
  intros H. pose proof (deliverable_running _ _ H) as Hr.
  unfold deliver. rewrite H. unfold run_top. rewrite Hr. simpl.
  split; [reflexivity | exact Hr].
Qed.

Lemma deliver_listen_failure (s : State) (e : error) :
  deliverable (ListenDone (Some e)) s = true ->
  trace (deliver s (ListenDone (Some e))) = trace s ++ [Uncaught e] /\
  status (deliver s (ListenDone (Some e))) = Crashed e.
Proof.
  intros H. pose proof (deliverable_running _ _ H) as Hr.
  unfold deliver. rewrite H. unfold run_top. rewrite Hr. simpl.
  split; reflexivity.
Qed.

Lemma deliver_listen_success (s : State) :
  deliverable (ListenDone None) s = true ->
  trace (deliver s (ListenDone None)) =
    trace s ++ [ConsoleLog ("Listening on port " +:+
                            port (http (connections (config s))))] /\
  status (deliver s (ListenDone None)) = Running.
Proof.
  intros H. pose proof (deliverable_running _ _ H) as Hr.
  unfold deliver. rewrite H. unfold run_top. rewrite Hr. simpl.
  split; [reflexivity | exact Hr].
Qed.

(** A callback only writes to the console or dies: it adds reports to the
    trace and touches neither the configuration nor the other bindings. *)
Lemma deliver_frame (s : State) (ev : event) :
  config (deliver s ev) = config s /\
  redisClient (deliver s ev) = redisClient s /\
  app (deliver s ev) = app s /\
  exists extra, trace (deliver s ev) = trace s ++ extra /\
                forallb is_report extra = true.
Proof.
  unfold deliver. destruct (deliverable ev s) eqn:H.
  - pose proof (deliverable_running _ _ H) as Hr.
    unfold run_top. rewrite Hr.
    destruct ev as [[e|] | [e|] | [e|]]; simpl;
      repeat split; try reflexivity.
    + exists [ConsoleLog "Could not connect to database"; Uncaught e].
      rewrite <- app_assoc. split; reflexivity.
    + exists []. rewrite app_nil_r. split; reflexivity.
    + exists [ConsoleError e]. split; reflexivity.
    + exists []. rewrite app_nil_r. split; reflexivity.
    + exists [Uncaught e]. split; reflexivity.
    + eexists. split; reflexivity.
  - repeat split; try reflexivity.
    exists []. rewrite app_nil_r. split; reflexivity.
Qed.

Lemma loop_app (evs1 evs2 : list event) (s : State) :
  loop (evs1 ++ evs2) s = loop evs2 (loop evs1 s).
Proof. unfold loop. apply fold_left_app. Qed.

Lemma loop_frame (evs : list event) (s : State) :
  config (loop evs s) = config s /\
  redisClient (loop evs s) = redisClient s /\
  app (loop evs s) = app s /\
  exists extra, trace (loop evs s) = trace s ++ extra /\
                forallb is_report extra = true.
Proof.
  revert s. induction evs as [|ev evs IH]; intros s; simpl.
  - repeat split; try reflexivity.
    exists []. rewrite app_nil_r. split; reflexivity.
  - destruct (IH (deliver s ev)) as (Hc & Hr & Ha & extra2 & Ht2 & Hf2).
    destruct (deliver_frame s ev) as (Hc1 & Hr1 & Ha1 & extra1 & Ht1 & Hf1).
    unfold loop in *. simpl.
    rewrite Hc, Hr, Ha, Ht2, Hc1, Hr1, Ha1, Ht1.
    repeat split; try reflexivity.
    exists (extra1 ++ extra2). rewrite app_assoc. split; [reflexivity|].
    rewrite forallb_app, Hf1, Hf2. reflexivity.
Qed.

(** Once the process has ended no callback runs. *)
Lemma loop_crashed (evs : list event) (s : State) (e : error) :
  status s = Crashed e -> loop evs s = s.
Proof.
  intros H. induction evs as [|ev evs IH]; [reflexivity|].
  unfold loop in *. simpl. rewrite deliver_refused; [exact IH|].
  unfold deliverable. rewrite H. reflexivity.
Qed.

(** Reports are invisible to an observer that only looks at library calls. *)
Lemma omap_reports {A} (f : action -> option A) (t extra : list action) :
  (forall a, is_report a = true -> f a = None) ->
  forallb is_report extra = true ->
  omap f (t ++ extra) = omap f t.
Proof.
  intros Hf Hx. rewrite omap_app.
  assert (omap f extra = []) as ->; [|apply app_nil_r].
  induction extra as [|a extra IH]; [reflexivity|].
  simpl in Hx. apply andb_true_iff in Hx as [Ha Hx].
  simpl. rewrite (Hf a Ha). apply IH, Hx.
Qed.

(** ** One delivery, seen from a live process *)

Lemma existsb_unregister (c c0 : callback) (l : list callback) :
  existsb (callback_eqb c)
    (filter (fun c' => negb (callback_eqb c0 c')) l) =
  negb (callback_eqb c0 c) && existsb (callback_eqb c) l.
Proof.
  induction l as [|x l IH].
  - destruct (callback_eqb c0 c); reflexivity.
  - rewrite filter_cons. destruct (decide _) as [Hd|Hd].
    + change (existsb (callback_eqb c) (x :: ?l'))
        with (callback_eqb c x || existsb (callback_eqb c) l').
      rewrite IH. simpl.
      destruct c0, x, c; simpl in *; try reflexivity; contradiction.
    + rewrite IH. simpl.
      destruct c0, x, c; simpl in *; try reflexivity;
        exfalso; apply Hd; exact I.
Qed.

Lemma deliver_pending (s : State) (ev : event) (c : callback) :
  deliverable ev s = true ->
  is_pending c (deliver s ev) =
  negb (callback_eqb (callback_of ev) c) && is_pending c s.
Proof.
  intros H. pose proof (deliverable_running _ _ H) as Hr.
  unfold deliver. rewrite H. unfold run_top. rewrite Hr.
  unfold is_pending.
  destruct ev as [[e|] | [e|] | [e|]];
    first [ exact (existsb_unregister c CbMongoose (pending s))
          | exact (existsb_unregister c CbRedis (pending s))
          | exact (existsb_unregister c CbListen (pending s)) ].
Qed.

Lemma deliver_silent (s : State) (ev : event) :
  failure ev = false -> listen_ok ev = false ->
  trace (deliver s ev) = trace s /\ status (deliver s ev) = status s.
Proof.
  intros Hf Hl. unfold deliver. destruct (deliverable ev s) eqn:H.
  - pose proof (deliverable_running _ _ H) as Hr.
    unfold run_top. rewrite Hr.
    destruct ev as [[e|] | [e|] | [e|]]; try discriminate; simpl;
      split; congruence.
  - split; reflexivity.
Qed.

(** Without a failure the callbacks stay silent, except that the first
    delivery of the listen callback prints the startup message. *)
Lemma loop_without_failure (evs : list event) (s : State) :
  status s = Running ->
  forallb (fun ev => negb (failure ev)) evs = true ->
  status (loop evs s) = Running /\
  trace (loop evs s) =
    trace s ++
    (if is_pending CbListen s && existsb listen_ok evs
     then [ConsoleLog ("Listening on port " +:+
                       port (http (connections (config s))))]
     else []).
Proof.
  revert s. induction evs as [|ev evs IH]; intros s Hr Hev.
  - simpl. rewrite andb_false_r, app_nil_r. split; [exact Hr | reflexivity].
  - simpl in Hev. apply andb_true_iff in Hev as [Hf Hev].
    apply negb_true_iff in Hf.
    change (loop (ev :: evs) s) with (loop evs (deliver s ev)).
    change (existsb listen_ok (ev :: evs))
      with (listen_ok ev || existsb listen_ok evs).
    destruct (deliver_frame s ev) as (Hcfg & _).
    destruct (deliverable ev s) eqn:Hd.
    + destruct (listen_ok ev) eqn:Hl.
      * destruct ev as [[e|] | [e|] | [e|]]; try discriminate.
        destruct (deliver_listen_success _ Hd) as [Ht Hs].
        destruct (IH _ Hs Hev) as [Hs' Ht'].
        split; [exact Hs'|].
        rewrite Ht', Ht, Hcfg.
        rewrite (deliver_pending s (ListenDone None) CbListen Hd).
        assert (is_pending CbListen s = true) as ->.
        { unfold deliverable in Hd. rewrite Hr in Hd. exact Hd. }
        simpl. rewrite <- app_assoc. reflexivity.
      * destruct (deliver_silent s ev Hf Hl) as [Ht Hs].
        rewrite Hr in Hs.
        destruct (IH _ Hs Hev) as [Hs' Ht'].
        split; [exact Hs'|].
        rewrite Ht', Ht, Hcfg, (deliver_pending s ev CbListen Hd).
        assert (callback_eqb (callback_of ev) CbListen = false) as ->.
        { destruct ev as [[e|] | [e|] | [e|]]; try discriminate; reflexivity. }
        reflexivity.
    + rewrite deliver_refused by exact Hd.
      destruct (IH _ Hr Hev) as [Hs' Ht'].
      split; [exact Hs'|]. rewrite Ht'.
      destruct (listen_ok ev) eqn:Hl; [|reflexivity].
      destruct ev as [[e|] | [e|] | [e|]]; try discriminate.
      unfold deliverable in Hd. rewrite Hr in Hd. simpl in Hd.
      rewrite Hd. reflexivity.
Qed.

Lemma app_setting_reports (name : string) (t extra : list action) :
  forallb is_report extra = true ->
  app_setting name (t ++ extra) = app_setting name t.
Proof.
  intros Hx.
  assert (app_setting name extra = None) as Hnone.
  { induction extra as [|a extra IH]; [reflexivity|].
    simpl in Hx. apply andb_true_iff in Hx as [Ha Hx].
    simpl. rewrite (IH Hx). destruct a; try discriminate; reflexivity. }
  induction t as [|a t IH]; [exact Hnone|].
  simpl. rewrite IH. reflexivity.
Qed.

Lemma filter_reports (extra : list action) :
  forallb is_report extra = true ->
  List.filter (fun a => negb (is_report a)) extra = [].
Proof.
  induction extra as [|a extra IH]; intros Hx; [reflexivity|].
  simpl in Hx. apply andb_true_iff in Hx as [Ha Hx].
  simpl. rewrite Ha. simpl. apply IH, Hx.
Qed.

(** What one delivery adds to the trace and does to the status. *)
Lemma deliver_effect (s : State) (ev : event) :
  deliverable ev s = true ->
  status (deliver s ev) =
    match fatal ev with Some e => Crashed e | None => Running end /\
  trace (deliver s ev) =
    trace s ++
    match ev with
    | MongooseDone (Some e) =>
        [ConsoleLog "Could not connect to database"; Uncaught e]
    | RedisSettled (Some e) => [ConsoleError e]
    | ListenDone (Some e) => [Uncaught e]
    | ListenDone None =>
        [ConsoleLog ("Listening on port " +:+
                     port (http (connections (config s))))]
    | _ => []
    end.
Proof.
  intros H. pose proof (deliverable_running _ _ H) as Hr.
  destruct ev as [[e|] | [e|] | [e|]].
  - destruct (deliver_mongoose_failure _ _ H) as [Ht Hs]. split; assumption.
  - destruct (deliver_silent s (MongooseDone None)) as [Ht Hs];
      [reflexivity | reflexivity |].
    rewrite Hs, Ht, app_nil_r. split; [exact Hr | reflexivity].
  - destruct (deliver_redis_rejection _ _ H) as [Ht Hs]. split; assumption.
  - destruct (deliver_silent s (RedisSettled None)) as [Ht Hs];
      [reflexivity | reflexivity |].
    rewrite Hs, Ht, app_nil_r. split; [exact Hr | reflexivity].
  - destruct (deliver_listen_failure _ _ H) as [Ht Hs]. split; assumption.
  - destruct (deliver_listen_success _ H) as [Ht Hs]. split; assumption.
Qed.

Lemma same_but_redis_refl (s : State) : same_but_redis s s.
Proof. repeat split; reflexivity. Qed.

Lemma deliver_redis_unseen (s s' : State) (ev : event) :
  is_redis ev = true -> same_but_redis s s' ->
  same_but_redis (deliver s ev) s'.
Proof.
  intros Hev (Hs & Hc & Hm & Hl & Ht).
  destruct (deliverable ev s) eqn:H;
    [|rewrite deliver_refused by exact H; repeat split; assumption].
  pose proof (deliverable_running _ _ H) as Hr.
  destruct (deliver_effect s ev H) as [Hs1 Ht1].
  destruct (deliver_frame s ev) as (Hc1 & _).
  pose proof (deliver_pending s ev CbMongoose H) as Hm1.
  pose proof (deliver_pending s ev CbListen H) as Hl1.
  destruct ev as [[e|] | [e|] | [e|]]; try discriminate;
    simpl in Hs1, Hm1, Hl1;
    (repeat split; [congruence | congruence | congruence | congruence |]);
    rewrite Ht1, List.filter_app, <- Ht; simpl; apply app_nil_r.
Qed.

Lemma deliver_same_but_redis (s s' : State) (ev : event) :
  is_redis ev = false -> same_but_redis s s' ->
  same_but_redis (deliver s ev) (deliver s' ev).
Proof.
  intros Hev (Hs & Hc & Hm & Hl & Ht).
  assert (deliverable ev s = deliverable ev s') as Hd.
  { unfold deliverable. rewrite Hs.
    destruct ev as [[e|] | [e|] | [e|]]; try discriminate; simpl;
      rewrite ?Hm, ?Hl; reflexivity. }
  destruct (deliverable ev s) eqn:H; symmetry in Hd.
  - destruct (deliver_effect s ev H) as [Hs1 Ht1].
    destruct (deliver_effect s' ev Hd) as [Hs2 Ht2].
    destruct (deliver_frame s ev) as (Hc1 & _).
    destruct (deliver_frame s' ev) as (Hc2 & _).
    repeat split.
    + congruence.
    + congruence.
    + rewrite (deliver_pending s ev CbMongoose H),
        (deliver_pending s' ev CbMongoose Hd), Hm. reflexivity.
    + rewrite (deliver_pending s ev CbListen H),
        (deliver_pending s' ev CbListen Hd), Hl. reflexivity.
    + rewrite Ht1, Ht2, !List.filter_app, Ht, Hc. reflexivity.
  - rewrite !deliver_refused by assumption. repeat split; assumption.
Qed.

Lemma loop_same_but_redis (evs : list event) (s s' : State) :
  same_but_redis s s' ->
  same_but_redis (loop evs s)
                 (loop (List.filter (fun ev => negb (is_redis ev)) evs) s').
Proof.
  revert s s'. induction evs as [|ev evs IH]; intros s s' H; [exact H|].
  change (loop (ev :: evs) s) with (loop evs (deliver s ev)).
  simpl. destruct (is_redis ev) eqn:Hev; simpl.
  - apply IH, deliver_redis_unseen; assumption.
  - apply (IH (deliver s ev) (deliver s' ev)), deliver_same_but_redis;
      assumption.
Qed.

Lemma filter_no_redis (evs : list event) :
  forallb (fun ev => negb (is_redis ev))
          (List.filter (fun ev => negb (is_redis ev)) evs) = true.
Proof.
  induction evs as [|ev evs IH]; [reflexivity|].
  simpl. destruct (is_redis ev) eqn:Hev; simpl; [exact IH|].
  rewrite Hev, IH. reflexivity.
Qed.

Lemma loop_no_console_error (evs : list event) (s : State) :
  forallb (fun ev => negb (is_redis ev)) evs = true ->
  List.filter (fun a => negb (is_console_error a)) (trace s) = trace s ->
  List.filter (fun a => negb (is_console_error a)) (trace (loop evs s)) =
  trace (loop evs s).
Proof.
  revert s. induction evs as [|ev evs IH]; intros s Hev Hs; [exact Hs|].
  simpl in Hev. apply andb_true_iff in Hev as [Hr Hev].
  change (loop (ev :: evs) s) with (loop evs (deliver s ev)).
  apply IH; [exact Hev|].
  destruct (deliverable ev s) eqn:H;
    [|rewrite deliver_refused by exact H; exact Hs].
  destruct (deliver_effect s ev H) as [_ Ht].
  rewrite Ht, List.filter_app, Hs.
  destruct ev as [[e|] | [e|] | [e|]]; try discriminate; reflexivity.
Qed.

Lemma forallb_take {A} (p : A -> bool) (n : nat) (l : list A) :
  forallb p l = true -> forallb p (take n l) = true.
Proof.
  revert n. induction l as [|x l IH]; intros [|n] H; try reflexivity.
  simpl in *. apply andb_true_iff in H as [Hx Hl].
  rewrite Hx. simpl. apply IH, Hl.
Qed.

Lemma filter_all {A} (p : A -> bool) (l : list A) :
  forallb p l = true -> List.filter p l = l.
Proof.
  induction l as [|x l IH]; intros H; [reflexivity|].
  simpl in *. apply andb_true_iff in H as [Hx Hl].
  rewrite Hx, (IH Hl). reflexivity.
Qed.

Section Facts.

Variable path_resolve : string -> string.
Variable dirname : string.
Variable throws : action -> option error.

Local Abbreviation main_ := (main path_resolve dirname throws).
Local Abbreviation full_ := (main path_resolve dirname never).
Local Abbreviation run_ := (run path_resolve dirname throws).

Lemma main_never (cfg : Config) :
  full_ cfg =
  mkState cfg (Some 0) (Some 1) 3 [CbMongoose; CbRedis; CbListen]
    [MongooseConnect (mongo (connections cfg));
     RedisCreateClient
       (VObj [("legacyMode", VBool true);
              ("url", VStr (redis (connections cfg)))]) 0;
     ClientConnect 0;
     RequireModule "./router.js";
     Express 1;
     AppUse 1 (Some "/assets")
       (ExpressStatic (path_resolve (path (staticAssets cfg))));
     AppUse 1 None Compression;
     AppUse 1 None (BodyParserUrlencoded (VObj [("extended", VBool true)]));
     NewRedisStore (VObj [("client", VRef 0)]) 2;
     AppUse 1 None
       (Session (VObj [("key", VStr "sessionid");
                       ("store", VRef 2);
                       ("secret", VStr (secret cfg));
                       ("resave", VBool true);
                       ("saveUninitialized", VBool true);
                       ("cookie", VObj [("httpOnly", VBool true)])]));
     AppEngine 1 "handlebars" (VObj [("defaultLayout", VStr "")]);
     AppSet 1 "view engine" "handlebars";
     AppSet 1 "views" (dirname +:+ "/../views");
     AppUse 1 None
       (Favicon (path_resolve (path (staticAssets cfg) +:+ "/img/favicon.png")));
     AppUse 1 None CookieParser;
     Router 1;
     AppListen 1 (port (http (connections cfg)))]
    Running.
Proof. reflexivity. Qed.

(** Stepping through the script: one statement is run on a known state,
    then each library call it makes either throws, which ends the script,
    or returns. *)
Ltac known_state t :=
  eval cbv beta iota zeta delta
    [run_top line39 line50 line54 line58 line59 line71 line73 line74 line82
     line95 line96 line97 line102 line103 line105 line111
     bind ret throw call emit alloc register get_config set_redisClient
     set_app get_redisClient get_app crash init
     config redisClient app next pending trace status] in t.

Ltac library_answer Hc :=
  lazymatch goal with
  | |- _ (exec _ ?st) =>
      lazymatch st with
      | context [throws ?a] =>
          let e := fresh "e" in
          destruct (throws a) as [e|] eqn:?; cbv beta iota zeta;
          [ rewrite (exec_crashed _ _ e) by reflexivity;
            lazymatch goal with
            | |- _ ?s =>
                let n := eval lazy in (Nat.pred (length (trace s))) in
                apply (Hc e n a); [assumption | reflexivity | reflexivity]
            end
          | ]
      end
  end.

Ltac run_statement Hc :=
  rewrite exec_cons;
  lazymatch goal with
  | |- context [run_top ?m ?s] =>
      let r := known_state (run_top m s) in change (run_top m s) with r
  end;
  repeat library_answer Hc.

(** Either every library call returned and the script ran as if none could
    throw, or one threw and the script ended there. *)
Lemma main_ind (cfg : Config) (P : State -> Prop) :
  P (full_ cfg) ->
  (forall e n a s,
     throws a = Some e ->
     status s = Crashed e ->
     trace s = take n (trace (full_ cfg)) ++ [Uncaught e] ->
     P s) ->
  P (main_ cfg).
Proof.
  intros Hfull Hc. rewrite main_never in Hc. simpl trace in Hc.
  unfold main, script.
  do 16 run_statement Hc.
  exact Hfull.
Qed.

Lemma main_cases (cfg : Config) :
  main_ cfg = full_ cfg \/
  exists e n a,
    throws a = Some e /\
    status (main_ cfg) = Crashed e /\
    trace (main_ cfg) = take n (trace (full_ cfg)) ++ [Uncaught e].
Proof.
  apply (main_ind cfg (fun s =>
    s = full_ cfg \/
    exists e n a,
      throws a = Some e /\ status s = Crashed e /\
      trace s = take n (trace (full_ cfg)) ++ [Uncaught e])).
  - left. reflexivity.
  - intros e n a s Ha Hs Ht. right. exists e, n, a. repeat split; assumption.
Qed.

(** A script that is alive at its end has made every call. *)
Lemma main_completed (cfg : Config) :
  status (main_ cfg) = Running -> main_ cfg = full_ cfg.
Proof.
  intros H. destruct (main_cases cfg) as [Hf | (e & n & a & _ & Hs & _)];
    [exact Hf | congruence].
Qed.

Lemma run_completed (cfg : Config) (evs : list event) :
  status (run_ cfg evs) = Running -> status (main_ cfg) = Running.
Proof.
  intros H. destruct (status (main_ cfg)) as [|e] eqn:Hs; [reflexivity|].
  unfold run in H. rewrite (loop_crashed evs _ e Hs) in H. congruence.
Qed.

(** A callback can only run after a script that ran to its end. *)
Lemma deliverable_completed (cfg : Config) (evs : list event) (ev : event) :
  deliverable ev (run_ cfg evs) = true -> status (main_ cfg) = Running.
Proof. intros H. apply (run_completed cfg evs), (deliverable_running _ _ H). Qed.

Lemma run_app (cfg : Config) (evs1 evs2 : list event) :
  run_ cfg (evs1 ++ evs2) = loop evs2 (run_ cfg evs1).
Proof. unfold run. apply loop_app. Qed.

Lemma run_snoc (cfg : Config) (evs : list event) (ev : event) :
  run_ cfg (evs ++ [ev]) = deliver (run_ cfg evs) ev.
Proof. rewrite run_app. reflexivity. Qed.

(** A run whose script ran to its end shows the library calls of the
    script, no more, no fewer. *)
Lemma run_calls {A} (f : action -> option A) (cfg : Config) (evs : list event) :
  (forall a, is_report a = true -> f a = None) ->
  status (main_ cfg) = Running ->
  omap f (trace (run_ cfg evs)) = omap f (trace (full_ cfg)).
Proof.
  intros Hf Hrun. unfold run.
  destruct (loop_frame evs (main_ cfg)) as (_ & _ & _ & extra & -> & Hx).
  rewrite (main_completed cfg Hrun). apply omap_reports; assumption.
Qed.

(** Any run shows an initial part of them. *)
Lemma run_calls_prefix {A} (f : action -> option A)
    (cfg : Config) (evs : list event) :
  (forall a, is_report a = true -> f a = None) ->
  omap f (trace (run_ cfg evs)) `prefix_of` omap f (trace (full_ cfg)).
Proof.
  intros Hf. destruct (main_cases cfg) as [Hm | (e & n & a & _ & Hs & Ht)].
  - unfold run. destruct (loop_frame evs (main_ cfg))
      as (_ & _ & _ & extra & -> & Hx).
    rewrite Hm, (omap_reports f _ extra Hf Hx). reflexivity.
  - unfold run. rewrite (loop_crashed evs _ e Hs), Ht.
    rewrite (omap_reports f _ [Uncaught e] Hf eq_refl).
    exists (omap f (drop n (trace (full_ cfg)))).
    rewrite <- omap_app, take_drop. reflexivity.
Qed.

Lemma script_reads_only :
  Forall reads_only (script path_resolve dirname throws).
Proof.
  unfold script.
  repeat (apply Forall_cons; split);
    [ unfold line39 | unfold line50 | unfold line54 | unfold line58
    | unfold line59 | unfold line71 | unfold line73 | unfold line74
    | unfold line82 | unfold line95 | unfold line96 | unfold line97
    | unfold line102 | unfold line103 | unfold line105 | unfold line111
    | apply Forall_nil ]; reads_only.
Qed.

Lemma handler_reads_only (ev : event) : reads_only (handler ev).
Proof.
  destruct ev as [[e|] | [e|] | [e|]]; simpl;
    unfold mongoose_callback, redis_catch, listen_callback; reads_only.
Qed.

Lemma main_config (cfg : Config) : config (main_ cfg) = cfg.
Proof. unfold main. apply (exec_config _ (init cfg)), script_reads_only. Qed.

Lemma run_config (cfg : Config) (evs : list event) :
  config (run_ cfg evs) = cfg.
Proof.
  unfold run. destruct (loop_frame evs (main_ cfg)) as (-> & _).
  apply main_config.
Qed.

Ltac blind := let a := fresh in let H := fresh in
  intros a H; destruct a; try discriminate H; reflexivity.

Lemma run_stages (cfg : Config) (evs : list event) :
  status (main_ cfg) = Running ->
  stages (trace (run_ cfg evs)) =
    [StaticStage; CompressionStage; BodyParsingStage; SessionStage;
     TemplatingStage; FaviconStage; CookieStage; RoutesStage; ListenStage].
Proof.
  intros Hrun. unfold stages. rewrite run_calls by (blind || exact Hrun).
  rewrite main_never. reflexivity.
Qed.

(** ** Order of attachment *)

(** C1: the bootstrap stages are attached in the order static assets,
    compression, URL-encoded body parsing, session, templating engine,
    favicon, cookie parsing, route table, listen.  In every run the stages
    reached are an initial part of that sequence, and the static assets
    are mounted at /assets; when the script runs to its end (no library
    call throws) all nine are there, the listen call last. *)
Theorem middleware_order (cfg : Config) (evs : list event) :
  stages (trace (run_ cfg evs)) `prefix_of`
    [StaticStage; CompressionStage; BodyParsingStage; SessionStage;
     TemplatingStage; FaviconStage; CookieStage; RoutesStage; ListenStage] /\
  omap static_mount (trace (run_ cfg evs)) `prefix_of`
    [(Some "/assets", path_resolve (path (staticAssets cfg)))] /\
  (status (main_ cfg) = Running ->
   stages (trace (run_ cfg evs)) =
     [StaticStage; CompressionStage; BodyParsingStage; SessionStage;
     TemplatingStage; FaviconStage; CookieStage; RoutesStage; ListenStage] /\
   omap static_mount (trace (run_ cfg evs)) =
     [(Some "/assets", path_resolve (path (staticAssets cfg)))]).
Proof.
  split; [|split].
  - pose proof (run_calls_prefix stage_of cfg evs) as H.
    rewrite main_never in H. apply H. blind.
  - pose proof (run_calls_prefix static_mount cfg evs) as H.
    rewrite main_never in H. apply H. blind.
  - intros Hrun. split; [apply run_stages, Hrun|].
    rewrite run_calls by (blind || exact Hrun).
    rewrite main_never. reflexivity.
Qed.

(** ** Failure of the mongoose connection *)

(** C2 (as amended): when the mongoose callback is run with an error, the
    message is logged and the error is thrown uncaught, which ends the
    process; whatever the event loop holds afterwards has no effect, and
    connect was called once only.  The listen call had been made by the
    script before the callback could run, so the process ends after the
    attempt to listen, not before it. *)
Theorem mongoose_failure_fatal (cfg : Config) (pre post : list event) (e : error) :
  deliverable (MongooseDone (Some e)) (run_ cfg pre) = true ->
  let s0 := run_ cfg pre in
  let s := run_ cfg (pre ++ MongooseDone (Some e) :: post) in
  status s = Crashed e /\
  trace s = trace s0 ++ [ConsoleLog "Could not connect to database"; Uncaught e] /\
  omap mongoose_uri (trace s) = [mongo (connections cfg)] /\
  omap listen_port (trace s0) = [port (http (connections cfg))].
Proof.
  intros H s0 s.
  pose proof (deliverable_completed _ _ _ H) as Hrun.
  destruct (deliver_mongoose_failure _ _ H) as [Ht Hs].
  assert (s = deliver s0 (MongooseDone (Some e))) as Hs1.
  { unfold s, s0. rewrite run_app. simpl.
    apply (loop_crashed post _ e). exact Hs. }
  rewrite Hs1. repeat split.
  - exact Hs.
  - exact Ht.
  - rewrite <- Hs1. unfold s. rewrite run_calls by (blind || exact Hrun).
    rewrite main_never. reflexivity.
  - unfold s0. rewrite run_calls by (blind || exact Hrun).
    rewrite main_never. reflexivity.
Qed.

(** ** Failure of the redis connection *)

(** C3: when the redis connect promise is rejected, the error goes to
    console.error and the process lives on; every bootstrap stage up to and
    including the listen call is in the trace, and connect is called on the
    client once in the whole run. *)
Theorem redis_failure_tolerated (cfg : Config) (pre post : list event) (e : error) :
  deliverable (RedisSettled (Some e)) (run_ cfg pre) = true ->
  let s0 := run_ cfg pre in
  let s1 := run_ cfg (pre ++ [RedisSettled (Some e)]) in
  let s := run_ cfg (pre ++ RedisSettled (Some e) :: post) in
  trace s1 = trace s0 ++ [ConsoleError e] /\
  status s1 = Running /\
  stages (trace s1) =
    [StaticStage; CompressionStage; BodyParsingStage; SessionStage;
     TemplatingStage; FaviconStage; CookieStage; RoutesStage; ListenStage] /\
  omap connected_client (trace s) = [0] /\
  omap created_client (trace s) =
    [(VObj [("legacyMode", VBool true);
            ("url", VStr (redis (connections cfg)))], 0)].
Proof.
  intros H s0 s1 s.
  pose proof (deliverable_completed _ _ _ H) as Hrun.
  destruct (deliver_redis_rejection _ _ H) as [Ht Hs].
  unfold s1, s, s0. rewrite run_snoc. repeat split.
  - exact Ht.
  - exact Hs.
  - rewrite <- run_snoc. apply run_stages, Hrun.
  - rewrite run_calls by (blind || exact Hrun). rewrite main_never. reflexivity.
  - rewrite run_calls by (blind || exact Hrun). rewrite main_never. reflexivity.
Qed.

(** ** The listen call *)

(** C4: listen is called once, with the configured port.  Its callback is
    run either with an error, which is thrown uncaught and ends the
    process without a message, or without one, and then the startup message
    is logged and the process lives on. *)
Theorem listen_outcomes (cfg : Config) (pre post : list event) (err : option error) :
  deliverable (ListenDone err) (run_ cfg pre) = true ->
  let s0 := run_ cfg pre in
  let s1 := run_ cfg (pre ++ [ListenDone err]) in
  omap listen_port (trace s0) = [port (http (connections cfg))] /\
  match err with
  | Some e =>
      status s1 = Crashed e /\
      trace s1 = trace s0 ++ [Uncaught e] /\
      run_ cfg (pre ++ ListenDone err :: post) = s1
  | None =>
      status s1 = Running /\
      trace s1 =
        trace s0 ++
        [ConsoleLog ("Listening on port " +:+ port (http (connections cfg)))]
  end.
Proof.
  intros H s0 s1.
  pose proof (deliverable_completed _ _ _ H) as Hrun. split.
  - unfold s0. rewrite run_calls by (blind || exact Hrun).
    rewrite main_never. reflexivity.
  - unfold s1, s0. rewrite run_snoc. destruct err as [e|].
    + destruct (deliver_listen_failure _ _ H) as [Ht Hs].
      repeat split; [exact Hs | exact Ht |].
      rewrite run_app. simpl. apply (loop_crashed post _ e). exact Hs.
    + destruct (deliver_listen_success _ H) as [Ht Hs].
      rewrite run_config in Ht. split; [exact Hs | exact Ht].
Qed.

(** ** The session middleware *)

(** C5: the session middleware has the cookie name sessionid, a store
    object, resave and saveUninitialized true, the configured secret, and a
    cookie object that sets httpOnly and has neither a secure nor a
    sameSite key; no run attaches any other.  When the script runs to its
    end it is attached once, and its store is the RedisStore built on the
    client that is bound to redisClient and that connect is called on. *)
Theorem session_configuration (cfg : Config) (evs : list event) :
  let s := run_ cfg evs in
  exists opts cookie store,
    omap session_options (trace s) `prefix_of` [opts] /\
    field "key" opts = Some (VStr "sessionid") /\
    field "store" opts = Some (VRef store) /\
    field "resave" opts = Some (VBool true) /\
    field "saveUninitialized" opts = Some (VBool true) /\
    field "secret" opts = Some (VStr (secret cfg)) /\
    field "cookie" opts = Some cookie /\
    field "httpOnly" cookie = Some (VBool true) /\
    field "secure" cookie = None /\
    field "sameSite" cookie = None /\
    (status (main_ cfg) = Running ->
     exists client,
       omap session_options (trace s) = [opts] /\
       omap created_store (trace s) =
         [(VObj [("client", VRef client)], store)] /\
       redisClient s = Some client /\
       omap connected_client (trace s) = [client]).
Proof.
  intros s. unfold s.
  pose proof (run_calls_prefix session_options cfg evs) as Hp.
  rewrite main_never in Hp.
  eexists _, _, _. split; [apply Hp; blind|].
  repeat (split; [reflexivity|]).
  intros Hrun. exists 0.
  rewrite !run_calls by (blind || exact Hrun).
  unfold run. destruct (loop_frame evs (main_ cfg)) as (_ & -> & _).
  rewrite (main_completed cfg Hrun), main_never.
  repeat split; reflexivity.
Qed.

(** ** The listen call does not wait for the connections *)

(** C7: when the script runs to its end, listen is its last call and comes
    after every attachment; when it is made both connection attempts have
    been started and neither has reported back.  In the run in which the
    listen callback is the first to be run, the server is up while the
    mongoose callback and the redis promise are still outstanding. *)
Theorem listen_does_not_wait (cfg : Config) :
  status (main_ cfg) = Running ->
  let s := main_ cfg in
  let s1 := run_ cfg [ListenDone None] in
  (exists before,
     trace s = before ++ [AppListen 1 (port (http (connections cfg)))] /\
     stages before =
       [StaticStage; CompressionStage; BodyParsingStage; SessionStage;
        TemplatingStage; FaviconStage; CookieStage; RoutesStage] /\
     omap mongoose_uri before = [mongo (connections cfg)] /\
     omap connected_client before = [0]) /\
  is_pending CbMongoose s = true /\
  is_pending CbRedis s = true /\
  status s1 = Running /\
  last (trace s1) =
    Some (ConsoleLog ("Listening on port " +:+ port (http (connections cfg)))) /\
  is_pending CbListen s1 = false /\
  is_pending CbMongoose s1 = true /\
  is_pending CbRedis s1 = true.
Proof.
  intros Hrun s s1. split.
  - exists (take 16 (trace s)). unfold s.
    rewrite (main_completed cfg Hrun), main_never.
    repeat split; reflexivity.
  - unfold s, s1, run. rewrite (main_completed cfg Hrun), main_never.
    repeat split; reflexivity.
Qed.

(** ** The configuration is only read *)

(** C8: no statement of the script and no callback writes the config
    binding, so after any number of statements and after any number of
    delivered events it still holds the configuration the process started
    with. *)
Theorem config_never_mutated (cfg : Config) :
  Forall (fun m => forall s, config (run_top m s) = config s)
         (script path_resolve dirname throws) /\
  (forall ev s, config (deliver s ev) = config s) /\
  (forall n,
     config (exec (take n (script path_resolve dirname throws)) (init cfg)) =
     cfg) /\
  (forall evs n, config (loop (take n evs) (main_ cfg)) = cfg).
Proof.
  repeat split.
  - eapply Forall_impl; [apply script_reads_only|].
    intros m Hm s. apply run_top_config, Hm.
  - intros ev s. unfold deliver. destruct (deliverable ev s); [|reflexivity].
    apply run_top_config. apply reads_only_bind.
    + apply reads_only_unregister.
    + intros _. apply handler_reads_only.
  - intros n. rewrite exec_config; [reflexivity|].
    apply Forall_take, script_reads_only.
  - intros evs n. apply (run_config cfg (take n evs)).
Qed.

(** ** One redis client *)

(** C9: no run creates a redis client other than the one made in legacy
    mode with the configured URL.  When the script runs to its end that
    client is created once; it is the one bound to redisClient, the one
    connect is called on, and the one the only RedisStore is built with,
    and that store is the store of the session middleware. *)
Theorem single_redis_client (cfg : Config) (evs : list event) :
  let s := run_ cfg evs in
  exists client store opts,
    omap created_client (trace s) `prefix_of`
      [(VObj [("legacyMode", VBool true);
              ("url", VStr (redis (connections cfg)))], client)] /\
    (status (main_ cfg) = Running ->
     omap created_client (trace s) =
       [(VObj [("legacyMode", VBool true);
               ("url", VStr (redis (connections cfg)))], client)] /\
     redisClient s = Some client /\
     omap connected_client (trace s) = [client] /\
     omap created_store (trace s) =
       [(VObj [("client", VRef client)], store)] /\
     omap session_options (trace s) = [opts] /\
     field "store" opts = Some (VRef store)).
Proof.
  intros s. unfold s.
  pose proof (run_calls_prefix created_client cfg evs) as Hp.
  rewrite main_never in Hp.
  eexists _, _, _. split; [apply Hp; blind|].
  intros Hrun.
  rewrite !run_calls by (blind || exact Hrun).
  unfold run. destruct (loop_frame evs (main_ cfg)) as (_ & -> & _).
  rewrite (main_completed cfg Hrun), main_never.
  repeat split; reflexivity.
Qed.

(** * Further properties of the bootstrap *)

(** X4: the callbacks make no library call.  The trace of a run is the
    trace of the script followed by console output and at most the final
    uncaught exception, so nothing is reconnected, attached or listened to
    after the script has run. *)
Theorem callbacks_make_no_library_call (cfg : Config) (evs : list event) :
  exists extra,
    trace (run_ cfg evs) = trace (main_ cfg) ++ extra /\
    forallb is_report extra = true.
Proof.
  unfold run.
  destruct (loop_frame evs (main_ cfg)) as (_ & _ & _ & extra & Ht & Hx).
  exists extra. split; assumption.
Qed.

(** X5: when the script has run to its end and no operation reports a
    failure afterwards, the process stays alive and the only output is the
    startup message, printed once if the listen callback was run and not
    at all otherwise; the successful mongoose and redis connections print
    nothing. *)
Theorem failure_free_run (cfg : Config) (evs : list event) :
  status (main_ cfg) = Running ->
  forallb (fun ev => negb (failure ev)) evs = true ->
  status (run_ cfg evs) = Running /\
  trace (run_ cfg evs) =
    trace (main_ cfg) ++
    (if existsb listen_ok evs
     then [ConsoleLog ("Listening on port " +:+ port (http (connections cfg)))]
     else []).
Proof.
  intros Hrun Hev. unfold run.
  destruct (loop_without_failure evs (main_ cfg) Hrun Hev) as [Hs Ht].
  split; [exact Hs|]. rewrite Ht, main_config.
  rewrite (main_completed cfg Hrun), main_never. reflexivity.
Qed.

(** X6: the script has no failure of its own.  If it ends early, the
    error is one that a library call threw: every module-level binding is
    declared before the statements that read it, and no configuration
    value is checked by app.js.  When no library call throws it runs to
    its end. *)
Theorem script_ends_early_only_on_a_library_error (cfg : Config) :
  (forall e, status (main_ cfg) = Crashed e -> exists a, throws a = Some e) /\
  ((forall a, throws a = None) -> status (main_ cfg) = Running).
Proof.
  assert (forall e, status (main_ cfg) = Crashed e ->
                    exists a, throws a = Some e) as Hcause.
  { intros e He.
    destruct (main_cases cfg) as [Hm | (e' & n & a & Ha & Hs & _)].
    - rewrite Hm, main_never in He. discriminate.
    - exists a. congruence. }
  split; [exact Hcause|].
  intros Hnone. destruct (status (main_ cfg)) as [|e] eqn:Hs; [reflexivity|].
  destruct (Hcause e eq_refl) as [a Ha]. rewrite Hnone in Ha. discriminate.
Qed.

(** X3: when the script runs to its end, the run has created one express
    application; every use, engine, set, route-table and listen call is
    made on it, and it is the object bound to app.  The application, the
    redis client and the session store are three different objects. *)
Theorem one_app_receives_every_call (cfg : Config) (evs : list event) :
  status (main_ cfg) = Running ->
  let s := run_ cfg evs in
  exists a,
    omap created_app (trace s) = [a] /\
    app s = Some a /\
    omap target (trace s) <> [] /\
    Forall (fun h => h = a) (omap target (trace s)) /\
    length (omap created (trace s)) = 3 /\
    NoDup (omap created (trace s)).
Proof.
  intros Hrun s. unfold s. exists 1.
  rewrite !run_calls by (blind || exact Hrun).
  unfold run. destruct (loop_frame evs (main_ cfg)) as (_ & _ & -> & _).
  rewrite (main_completed cfg Hrun), main_never. simpl.
  split; [reflexivity|]. split; [reflexivity|]. split; [discriminate|].
  split; [repeat constructor|]. split; [reflexivity|].
  repeat (apply NoDup_cons; split;
          [ intros Hin;
            repeat (apply elem_of_cons in Hin as [Hin|Hin]; [discriminate|]);
            apply elem_of_nil in Hin; exact Hin |]).
  apply NoDup_nil. exact I.
Qed.

(** X7: when the script runs to its end, the view engine setting names the
    one extension an engine was registered for, and the views directory is
    the views folder beside the directory of app.js. *)
Theorem view_engine_is_registered (cfg : Config) (evs : list event) :
  status (main_ cfg) = Running ->
  let t := trace (run_ cfg evs) in
  exists ext,
    app_setting "view engine" t = Some ext /\
    omap engine_ext t = [ext] /\
    app_setting "views" t = Some (dirname +:+ "/../views").
Proof.
  intros Hrun t. unfold t. exists "handlebars".
  rewrite run_calls by (blind || exact Hrun).
  unfold run.
  destruct (loop_frame evs (main_ cfg)) as (_ & _ & _ & extra & -> & Hx).
  rewrite !app_setting_reports by exact Hx.
  rewrite (main_completed cfg Hrun), main_never. repeat split; reflexivity.
Qed.

(** The script itself never writes to console.error. *)
Lemma main_no_console_error (cfg : Config) :
  List.filter (fun a => negb (is_console_error a)) (trace (main_ cfg)) =
  trace (main_ cfg).
Proof.
  apply filter_all.
  destruct (main_cases cfg) as [Hm | (e & n & a & _ & _ & Ht)].
  - rewrite Hm, main_never. reflexivity.
  - rewrite Ht, forallb_app, andb_true_iff. split; [|reflexivity].
    apply forallb_take. rewrite main_never. reflexivity.
Qed.

(** X9: what redis reports, and when, changes nothing but the
    console.error line.  A run and the same run with every redis event
    removed end in the same status and have the same trace once the
    console.error calls are left out. *)
Theorem redis_outcome_is_irrelevant (cfg : Config) (evs : list event) :
  let quiet := List.filter (fun ev => negb (is_redis ev)) evs in
  status (run_ cfg evs) = status (run_ cfg quiet) /\
  List.filter (fun a => negb (is_console_error a)) (trace (run_ cfg evs)) =
  trace (run_ cfg quiet).
Proof.
  intros quiet.
  destruct (loop_same_but_redis evs (main_ cfg) (main_ cfg)
              (same_but_redis_refl _)) as (Hs & _ & _ & _ & Ht).
  split; [exact Hs|].
  unfold run. rewrite Ht. apply loop_no_console_error.
  - apply filter_no_redis.
  - apply main_no_console_error.
Qed.

End Facts.

(** ** Paths *)










(** ** Static assets and favicon *)

Section Favicon.

(** path.resolve is taken with its POSIX behaviour, in a process whose
    working directory is [cwd]. *)
Variable cwd : string.
Variable dirname : string.
Variable throws : action -> option error.

Local Abbreviation main_ := (main (posix_resolve cwd) dirname throws).
Local Abbreviation run_ := (run (posix_resolve cwd) dirname throws).



End Favicon.

(** ** The config resolver *)

Lemma get_of_values (vals : setting -> string) (f : setting) :
  get f (of_values vals) = vals f.
Proof. destruct f; reflexivity. Qed.

Lemma of_values_get (c : Config) : of_values (fun f => get f c) = c.
Proof. destruct c as [[m r [p]] k [a]]. reflexivity. Qed.

Lemma of_values_ext (vals vals' : setting -> string) :
  (forall f, vals f = vals' f) -> of_values vals = of_values vals'.
Proof. intros H. unfold of_values. rewrite !H. reflexivity. Qed.

Section ResolverFacts.

Variable variable_of : setting -> string.
Variable defaults : Config.

Local Abbreviation pick_ := (pick variable_of defaults).
Local Abbreviation resolve_ := (resolve variable_of defaults).

Lemma pick_set (env : gmap string string) (f : setting) (v : string) :
  env !! variable_of f = Some v -> v <> "" -> pick_ env f = v.
Proof.
  intros H Hv. unfold pick. rewrite H.
  destruct (String.eqb_spec v ""); [contradiction | reflexivity].
Qed.

Lemma pick_default (env : gmap string string) (f : setting) :
  env !! variable_of f = None \/ env !! variable_of f = Some "" ->
  pick_ env f = get f defaults.
Proof. intros [H|H]; unfold pick; rewrite H; reflexivity. Qed.

(** C6: the resolved structure is a function of the recognized variables
    alone.  A field whose variable is set and non-empty has the variable's
    value; a field whose variable is unset or empty has the default.  Hence
    an environment that gives every variable a non-empty value resolves to
    exactly those values, and one that sets none resolves to the defaults.
    The resolver is total: there is no error result. *)
Theorem resolve_policy (env : gmap string string) :
  (forall f v,
     env !! variable_of f = Some v -> v <> "" -> get f (resolve_ env) = v) /\
  (forall f,
     env !! variable_of f = None \/ env !! variable_of f = Some "" ->
     get f (resolve_ env) = get f defaults) /\
  (forall vals,
     (forall f, env !! variable_of f = Some (vals f) /\ vals f <> "") ->
     resolve_ env = of_values vals) /\
  ((forall f, env !! variable_of f = None) -> resolve_ env = defaults) /\
  (forall env',
     (forall f, env' !! variable_of f = env !! variable_of f) ->
     resolve_ env' = resolve_ env).
Proof.
  unfold resolve. repeat split.
  - intros f v H Hv. rewrite get_of_values. apply pick_set; assumption.
  - intros f H. rewrite get_of_values. apply pick_default, H.
  - intros vals H. apply of_values_ext. intros f.
    destruct (H f) as [Hf Hv]. apply pick_set; assumption.
  - intros H. rewrite <- (of_values_get defaults) at 2.
    apply of_values_ext. intros f. apply pick_default. left. apply H.
  - intros env' H. apply of_values_ext. intros f.
    unfold pick. rewrite H. reflexivity.
Qed.

End ResolverFacts.

(** An empty value counts as unset: the default is substituted. *)
Example resolve_empty_port :
  resolve sample_variable sample (<["PORT" := ""]> sample_env) =
  of_values (fun f => match f with HttpPort => "3000" | _ => sample_values f end).
Proof. vm_compute. reflexivity. Qed.

(** ** Concrete runs *)

(** The sample configuration runs to its end with the sample libraries. *)
Lemma sample_completes :
  status (main sample_resolve sample_dirname sample_throws sample) = Running.
Proof. reflexivity. Qed.

(** Three configurations on which a library call throws and ends the
    script: an icon that is not on disk, a redis url that is not one, a
    port out of range. *)
Example script_ends_at_favicon :
  let cfg := {| connections := connections sample; secret := secret sample;
                staticAssets := {| path := "nofavicon/" |} |} in
  let s := run sample_resolve sample_dirname sample_throws cfg
               [ListenDone None] in
  status s = Crashed "ENOENT" /\
  last (trace s) = Some (Uncaught "ENOENT") /\
  stages (trace s) =
    [StaticStage; CompressionStage; BodyParsingStage; SessionStage;
     TemplatingStage].
Proof. vm_compute. repeat split; reflexivity. Qed.

Example script_ends_at_createClient :
  let cfg := {| connections := {| mongo := mongo (connections sample);
                                  redis := "not a url";
                                  http := http (connections sample) |};
                secret := secret sample;
                staticAssets := staticAssets sample |} in
  let s := run sample_resolve sample_dirname sample_throws cfg [] in
  trace s =
    [MongooseConnect "mongodb://127.0.0.1/demo"; Uncaught "ERR_INVALID_URL"] /\
  status s = Crashed "ERR_INVALID_URL".
Proof. vm_compute. split; reflexivity. Qed.

Example script_ends_at_listen :
  let cfg := {| connections := {| mongo := mongo (connections sample);
                                  redis := redis (connections sample);
                                  http := {| port := "70000" |} |};
                secret := secret sample;
                staticAssets := staticAssets sample |} in
  let s := run sample_resolve sample_dirname sample_throws cfg
               [ListenDone None] in
  status s = Crashed "ERR_SOCKET_BAD_PORT" /\
  omap listen_port (trace s) = [] /\
  is_pending CbListen s = false.
Proof. vm_compute. repeat split; reflexivity. Qed.

(** With an empty static path the template literal of line 102 is the
    absolute path /img/favicon.png, which is not under the static root. *)
Example empty_static_path :
  sample_resolve "" = "/srv/app" /\
  sample_resolve ("" +:+ "/img/favicon.png") = "/img/favicon.png".
Proof. vm_compute. split; reflexivity. Qed.

Lemma middleware_order_witness :
  status (main sample_resolve sample_dirname sample_throws sample) = Running /\
  stages (trace (run sample_resolve sample_dirname sample_throws sample
                     [ListenDone None])) =
    [StaticStage; CompressionStage; BodyParsingStage; SessionStage;
      TemplatingStage; FaviconStage; CookieStage; RoutesStage; ListenStage] /\
  omap static_mount
    (trace (run sample_resolve sample_dirname sample_throws sample
                [ListenDone None])) =
    [(Some "/assets", "/srv/app/hosted")].
Proof.
  split; [reflexivity|].
  apply (middleware_order sample_resolve sample_dirname sample_throws sample
           [ListenDone None]).
  reflexivity.
Defined.

(** C2, as the specification words it, fails: here the mongoose callback
    reports a refused connection.  The process does end, but the last thing
    the script did before the callback ran was to call listen. *)
Lemma mongoose_failure_after_listen :
  let s0 := main sample_resolve sample_dirname sample_throws sample in
  let s := run sample_resolve sample_dirname sample_throws sample
               [MongooseDone (Some "ECONNREFUSED")] in
  deliverable (MongooseDone (Some "ECONNREFUSED")) s0 = true /\
  status s = Crashed "ECONNREFUSED" /\
  last (trace s0) = Some (AppListen 1 "3000") /\
  trace s =
    trace s0 ++
    [ConsoleLog "Could not connect to database"; Uncaught "ECONNREFUSED"].
Proof. vm_compute. repeat split; reflexivity. Qed.

Lemma mongoose_failure_fatal_witness :
  let s0 := run sample_resolve sample_dirname sample_throws sample
                [RedisSettled None] in
  let s := run sample_resolve sample_dirname sample_throws sample
               ([RedisSettled None] ++
                MongooseDone (Some "ECONNREFUSED") :: [ListenDone None]) in
  deliverable (MongooseDone (Some "ECONNREFUSED")) s0 = true /\
  (status s = Crashed "ECONNREFUSED" /\
   trace s =
     trace s0 ++
     [ConsoleLog "Could not connect to database"; Uncaught "ECONNREFUSED"] /\
   omap mongoose_uri (trace s) = ["mongodb://127.0.0.1/demo"] /\
   omap listen_port (trace s0) = ["3000"]).
Proof.
  split; [reflexivity|].
  apply (mongoose_failure_fatal sample_resolve sample_dirname sample_throws
           sample [RedisSettled None] [ListenDone None] "ECONNREFUSED").
  reflexivity.
Defined.

Lemma redis_failure_tolerated_witness :
  let s0 := run sample_resolve sample_dirname sample_throws sample [] in
  let s1 := run sample_resolve sample_dirname sample_throws sample
                ([] ++ [RedisSettled (Some "ECONNREFUSED")]) in
  let s := run sample_resolve sample_dirname sample_throws sample
               ([] ++ RedisSettled (Some "ECONNREFUSED") :: [ListenDone None]) in
  deliverable (RedisSettled (Some "ECONNREFUSED")) s0 = true /\
  (trace s1 = trace s0 ++ [ConsoleError "ECONNREFUSED"] /\
   status s1 = Running /\
   stages (trace s1) =
     [StaticStage; CompressionStage; BodyParsingStage; SessionStage;
      TemplatingStage; FaviconStage; CookieStage; RoutesStage; ListenStage] /\
   omap connected_client (trace s) = [0] /\
   omap created_client (trace s) =
     [(VObj [("legacyMode", VBool true);
             ("url", VStr "redis://127.0.0.1:6379")], 0)]).
Proof.
  split; [reflexivity|].
  apply (redis_failure_tolerated sample_resolve sample_dirname sample_throws
           sample [] [ListenDone None] "ECONNREFUSED").
  reflexivity.
Defined.

Lemma listen_outcomes_witness :
  let s0 := run sample_resolve sample_dirname sample_throws sample [] in
  let failed := run sample_resolve sample_dirname sample_throws sample
                    ([] ++ [ListenDone (Some "EADDRINUSE")]) in
  let listening := run sample_resolve sample_dirname sample_throws sample
                       ([] ++ [ListenDone None]) in
  deliverable (ListenDone (Some "EADDRINUSE")) s0 = true /\
  deliverable (ListenDone None) s0 = true /\
  omap listen_port (trace s0) = ["3000"] /\
  (status failed = Crashed "EADDRINUSE" /\
   trace failed = trace s0 ++ [Uncaught "EADDRINUSE"] /\
   run sample_resolve sample_dirname sample_throws sample
       ([] ++ ListenDone (Some "EADDRINUSE") :: [MongooseDone None]) = failed) /\
  (status listening = Running /\
   trace listening = trace s0 ++ [ConsoleLog "Listening on port 3000"]).
Proof.
  split; [reflexivity|]. split; [reflexivity|]. split; [reflexivity|]. split.
  - apply (listen_outcomes sample_resolve sample_dirname sample_throws sample
             [] [MongooseDone None] (Some "EADDRINUSE")).
    reflexivity.
  - apply (listen_outcomes sample_resolve sample_dirname sample_throws sample
             [] [] None).
    reflexivity.
Defined.

Lemma session_configuration_witness :
  status (main sample_resolve sample_dirname sample_throws sample) = Running /\
  exists opts cookie store,
    field "key" opts = Some (VStr "sessionid") /\
    field "cookie" opts = Some cookie /\
    field "secure" cookie = None /\
    field "store" opts = Some (VRef store) /\
    exists client,
      omap session_options
        (trace (run sample_resolve sample_dirname sample_throws sample [])) =
        [opts] /\
      omap created_store
        (trace (run sample_resolve sample_dirname sample_throws sample [])) =
        [(VObj [("client", VRef client)], store)] /\
      redisClient (run sample_resolve sample_dirname sample_throws sample []) =
        Some client.
Proof.
  split; [reflexivity|].
  destruct (session_configuration sample_resolve sample_dirname sample_throws
              sample [])
    as (opts & cookie & store & _ & Hk & Hst & _ & _ & _ & Hc & _ & Hsec & _ & H).
  destruct (H eq_refl) as (client & Ho & Hcs & Hrc & _).
  exists opts, cookie, store. repeat split; try assumption.
  exists client. repeat split; assumption.
Defined.

Lemma listen_does_not_wait_witness :
  status (main sample_resolve sample_dirname sample_throws sample) = Running /\
  let s1 := run sample_resolve sample_dirname sample_throws sample
                [ListenDone None] in
  status s1 = Running /\
  last (trace s1) = Some (ConsoleLog "Listening on port 3000") /\
  is_pending CbMongoose s1 = true /\
  is_pending CbRedis s1 = true.
Proof.
  split; [reflexivity|].
  destruct (listen_does_not_wait sample_resolve sample_dirname sample_throws
              sample eq_refl)
    as (_ & _ & _ & Hs & Hl & _ & Hm & Hr).
  repeat split; assumption.
Defined.

Lemma single_redis_client_witness :
  status (main sample_resolve sample_dirname sample_throws sample) = Running /\
  exists client store,
    omap created_client
      (trace (run sample_resolve sample_dirname sample_throws sample
                  [RedisSettled None])) =
      [(VObj [("legacyMode", VBool true);
              ("url", VStr "redis://127.0.0.1:6379")], client)] /\
    omap created_store
      (trace (run sample_resolve sample_dirname sample_throws sample
                  [RedisSettled None])) =
      [(VObj [("client", VRef client)], store)].
Proof.
  split; [reflexivity|].
  destruct (single_redis_client sample_resolve sample_dirname sample_throws
              sample [RedisSettled None])
    as (client & store & opts & _ & H).
  destruct (H eq_refl) as (Hc & _ & _ & Hs & _).
  exists client, store. split; assumption.
Defined.


Lemma resolve_policy_witness :
  (forall f, sample_env !! sample_variable f = Some (sample_values f) /\
             sample_values f <> "") /\
  resolve sample_variable sample sample_env = of_values sample_values /\
  (forall f, (∅ : gmap string string) !! sample_variable f = None) /\
  resolve sample_variable sample ∅ = sample.
Proof.
  assert (forall f, sample_env !! sample_variable f = Some (sample_values f) /\
                    sample_values f <> "") as Hset.
  { intros f. destruct f; split; solve [reflexivity | discriminate]. }
  assert (forall f, (∅ : gmap string string) !! sample_variable f = None)
    as Hunset.
  { intros f. reflexivity. }
  split; [exact Hset|]. split; [|split; [exact Hunset|]].
  - destruct (resolve_policy sample_variable sample sample_env)
      as (_ & _ & H & _).
    apply H. exact Hset.
  - destruct (resolve_policy sample_variable sample ∅) as (_ & _ & _ & H & _).
    apply H. exact Hunset.
Defined.

Lemma failure_free_run_witness :
  let evs := [ListenDone None; MongooseDone None; ListenDone None;
              RedisSettled None] in
  status (main sample_resolve sample_dirname sample_throws sample) = Running /\
  forallb (fun ev => negb (failure ev)) evs = true /\
  (status (run sample_resolve sample_dirname sample_throws sample evs) =
     Running /\
   trace (run sample_resolve sample_dirname sample_throws sample evs) =
     trace (main sample_resolve sample_dirname sample_throws sample) ++
     [ConsoleLog "Listening on port 3000"]).
Proof.
  split; [reflexivity|]. split; [reflexivity|].
  apply (failure_free_run sample_resolve sample_dirname sample_throws sample
           [ListenDone None; MongooseDone None; ListenDone None;
            RedisSettled None]); reflexivity.
Defined.

Lemma script_ends_early_only_on_a_library_error_witness :
  (forall a, never a = None) /\
  status (main sample_resolve sample_dirname never sample) = Running /\
  exists a, sample_throws a = Some "ENOENT".
Proof.
  split; [reflexivity|]. split.
  - apply (script_ends_early_only_on_a_library_error
             sample_resolve sample_dirname never sample).
    reflexivity.
  - apply (script_ends_early_only_on_a_library_error
             sample_resolve sample_dirname sample_throws
             {| connections := connections sample; secret := secret sample;
                staticAssets := {| path := "nofavicon/" |} |}).
    reflexivity.
Defined.

Lemma one_app_receives_every_call_witness :
  status (main sample_resolve sample_dirname sample_throws sample) = Running /\
  exists a,
    omap created_app
      (trace (run sample_resolve sample_dirname sample_throws sample [])) =
      [a] /\
    app (run sample_resolve sample_dirname sample_throws sample []) = Some a.
Proof.
  split; [reflexivity|].
  destruct (one_app_receives_every_call sample_resolve sample_dirname
              sample_throws sample [] eq_refl) as (a & Hc & Ha & _).
  exists a. split; assumption.
Defined.

Lemma view_engine_is_registered_witness :
  status (main sample_resolve sample_dirname sample_throws sample) = Running /\
  exists ext,
    app_setting "view engine"
      (trace (run sample_resolve sample_dirname sample_throws sample [])) =
      Some ext /\
    omap engine_ext
      (trace (run sample_resolve sample_dirname sample_throws sample [])) =
      [ext] /\
    app_setting "views"
      (trace (run sample_resolve sample_dirname sample_throws sample [])) =
      Some "/srv/app/src/../views".
Proof.
  split; [reflexivity|].
  apply (view_engine_is_registered sample_resolve sample_dirname sample_throws
           sample [] eq_refl).
Defined.
